(** * battery_monitor.py: a shallow embedding and its properties

    The script polls an INA219 power sensor, prints the readings, sends
    desktop notifications when the charge estimate falls under two
    thresholds and leaves its loop after a countdown when the battery is
    critically low and the board still runs on battery.

    Modelling choices.
    - Python floats are modelled by exact rationals ([Q]); the literals
      [3.0], [4.1], [25.00], ... are the rationals they denote.
    - Time is logical: a clock in seconds that only [time.sleep] advances.
    - The sensor is a function of that clock: every register access reads
      the sample of the current instant and may fail (the I2C transaction
      raising an exception).
    - Console lines, notifications, sleeps, register accesses and the
      shutdown command are recorded, in order, in a trace.
    - [subprocess.run] is called without [check=True]: the exit status of
      [notify-send] is discarded, so a notification that fails leaves the
      control flow unchanged and the model does not record its status.
      The commands themselves are taken to be installed, except in the
      second embedding of the loop ([live_cycle], [live_monitor]), where
      a call of [notify-send] can also raise; the two embeddings agree
      whenever every call returns.
    - The start of the script (lines 49-73: the sensor's address and its
      ADC settings, and a debug listing that is switched off) comes before
      the loop and is not modelled. *)

From Stdlib Require Import QArith ZArith List Bool Lia Lqa.
Import ListNotations.

Open Scope Q_scope.

(** ** Numbers *)

(** [x < y] on floats, as a boolean. *)
Definition Qlt_bool (x y : Q) : bool := negb (Qle_bool y x).

(** ** User variables (source lines 46-48) *)

Definition battery_is_low : Q := 25.00.
Definition battery_shutdown : Q := 10.00.
Definition battery_check_interval : nat := 10.

(** ** The charge estimate *)

(** [get_battery_percentage] (line 79): the two-point interpolation of
    the UPS HAT (C) profile, returned as computed. *)
Definition get_battery_percentage (bus_voltage : Q) : Q :=
  ((bus_voltage - 3.0) / (4.1 - 3.0)) * 100.

(** The two assignments of lines 117-118, in sequence. *)
Definition clamp (percent : Q) : Q :=
  let percent := if Qlt_bool 98 percent then 100 else percent in
  let percent := if Qlt_bool percent 0 then 0 else percent in
  percent.

(** [percent] (lines 116-118): the same interpolation, written inline in
    the loop, then clamped; it is only printed. *)
Definition percent (bus_voltage : Q) : Q :=
  clamp ((bus_voltage - 3.0) / (4.1 - 3.0) * 100).

(** [get_power_calc] (line 140). *)
Definition get_power_calc (bus_voltage current : Q) : Q :=
  bus_voltage * (current / 1000).

(** The test of line 158. *)
Definition confirm_check (battery_percentage power_calc : Q) : bool :=
  Qle_bool battery_percentage battery_shutdown && Qle_bool power_calc (-1.00).

(** ** The sensor *)

Inductive Register : Type :=
| BusVoltage | ShuntVoltage | Current | Power | Overflow.

(** What each register access returns at one instant; [None] is an
    access that raises. *)
Record Sample : Type := mkSample {
  bus_voltage : option Q;
  shunt_voltage : option Q;
  current : option Q;
  power : option Q;
  overflow : option bool
}.

Definition Sensor : Type := nat -> Sample.

(** ** Effects *)

Inductive Urgency : Type :=
| Normal    (* notify-send -t 2000: disappears after two seconds *)
| Critical. (* notify-send --urgency=critical: stays on screen *)

(** The body of a notification; the payload is the number formatted
    into the text. *)
Inductive Message : Type :=
| MRunningOnBattery (pct : Q)   (* "We are running on the Pi5's UPS battery: ..." *)
| MBatteryLow (pct : Q)         (* "Pi5 UPS Battery Low: ...% Remaining! Charge ASAP!" *)
| MCriticallyLow (pct : Q)      (* "Battery critically low: ...% remaining! Plug into power ..." *)
| MCountdown (i : Z)            (* "Shutting down in i seconds..." *)
| MShuttingDown (pct : Q)       (* "Battery is critical: ...% System is Shutting down..." *)
| MCharging (pct : Q).          (* "Battery is charging: ...%" *)

(** A line printed on the console. *)
Inductive Line : Type :=
| LVinPlus (v : Q)
| LVinMinus (v : Q)
| LShuntVoltage (v : Q)
| LShuntCurrent (a : Q)
| LPowerCalc (p : Q)
| LPowerRegister (p : Q)
| LPercent (p : Q)
| LBlank
| LOverflow                     (* "Internal Math Overflow Detected!" *)
| LNoInput                      (* "No input voltage detected" *)
| LRanBatteryPercentage         (* "Ran Battery Percentage" *)
| LCountdown (i : Z)            (* "Shutting down in i seconds..." *)
| LSystemShuttingDown.          (* "System is shutting down!" *)

Inductive Event : Type :=
| Read (r : Register)
| Console (l : Line)
| Notify (u : Urgency) (m : Message)
| Sleep (secs : nat)
| Shutdown.                     (* sudo shutdown -h now *)

Record World : Type := mkWorld {
  now : nat;
  trace : list Event
}.

Definition boot (t : nat) : World := mkWorld t [].

Inductive Exn : Type :=
| SensorFault (r : Register)   (* a register access that raises *)
| NotifierError.               (* subprocess.run cannot execute notify-send *)

Inductive Result (A : Type) : Type :=
| Ok (a : A) (w : World)
| Raised (e : Exn) (w : World).
Arguments Ok {A} a w.
Arguments Raised {A} e w.

Definition final {A : Type} (r : Result A) : World :=
  match r with Ok _ w | Raised _ w => w end.

(** Computations: a world in, a value or an exception and a world out. *)
Definition M (A : Type) : Type := World -> Result A.

Definition ret {A : Type} (a : A) : M A := fun w => Ok a w.

Definition bind {A B : Type} (m : M A) (f : A -> M B) : M B :=
  fun w => match m w with
           | Ok a w' => f a w'
           | Raised e w' => Raised e w'
           end.

Declare Scope monitor_scope.
Delimit Scope monitor_scope with mon.
Notation "x <- m ;; k" := (bind m (fun x => k))
  (at level 61, m at next level, right associativity) : monitor_scope.
Notation "m ;; k" := (bind m (fun _ => k))
  (at level 61, right associativity) : monitor_scope.
Open Scope monitor_scope.

Definition emit (e : Event) : M unit :=
  fun w => Ok tt (mkWorld (now w) (trace w ++ [e])).

Definition print (l : Line) : M unit := emit (Console l).

(** [time.sleep]. *)
Definition sleep (secs : nat) : M unit :=
  fun w => Ok tt (mkWorld (now w + secs) (trace w ++ [Sleep secs])).

Definition when (b : bool) (m : M unit) : M unit :=
  if b then m else ret tt.

Fixpoint for_each {A : Type} (xs : list A) (body : A -> M unit) : M unit :=
  match xs with
  | [] => ret tt
  | x :: xs' => body x ;; for_each xs' body
  end.

(** Python's [range(start, stop, step)]; a zero step raises in Python
    and is not used by the script. *)
Definition py_range (start stop step : Z) : list Z :=
  let len :=
    if (0 <? step)%Z then ((stop - start + step - 1) / step)%Z
    else if (step <? 0)%Z then ((start - stop - step - 1) / (- step))%Z
    else 0%Z in
  map (fun k => (start + step * Z.of_nat k)%Z) (seq 0 (Z.to_nat len)).

(** ** The script's functions *)

(** [send_alert] (line 82). *)
Definition send_alert (m : Message) : M unit := emit (Notify Normal m).

(** [send_critical_alert] (line 86). *)
Definition send_critical_alert (m : Message) : M unit := emit (Notify Critical m).

(** [shutdown_system] (line 90). *)
Definition shutdown_system : M unit := emit Shutdown.

(** [battery_low] (lines 93-99). *)
Definition battery_low : M unit :=
  for_each (py_range 10 0 (-3)) (fun i =>
    print (LCountdown i) ;;
    send_alert (MCountdown i) ;;
    sleep 3).

(** [system_shutdown] (lines 104-107). *)
Definition system_shutdown : M unit :=
  print LSystemShuttingDown ;;
  sleep 5 ;;
  emit Shutdown.

(** ** The loop *)

Inductive Control : Type := Continue | Break.

Inductive Outcome : Type :=
| Exited    (* the loop was left by [break]: the script ends *)
| Running.  (* the loop is still going when the model's fuel ends *)

Section Monitor.

Variable ina219 : Sensor.

(** One register access. *)
Definition read {A : Type} (r : Register) (field : Sample -> option A) : M A :=
  fun w =>
    let w' := mkWorld (now w) (trace w ++ [Read r]) in
    match field (ina219 (now w)) with
    | Some v => Ok v w'
    | None => Raised (SensorFault r) w'
    end.

(** Lines 121-128. *)
Definition report (bus_v shunt_v cur pow pct : Q) : M unit :=
  print (LVinPlus (bus_v + shunt_v)) ;;
  print (LVinMinus bus_v) ;;
  print (LShuntVoltage shunt_v) ;;
  print (LShuntCurrent (cur / 1000)) ;;
  print (LPowerCalc (bus_v * (cur / 1000))) ;;
  print (LPowerRegister pow) ;;
  print (LPercent pct) ;;
  print LBlank.

(** Lines 131-133. *)
Definition check_overflow : M unit :=
  ov <- read Overflow overflow ;;
  when ov (print LOverflow ;; print LBlank).

(** Lines 155-163; [Break] is the [break] of line 161. The call of
    [system_shutdown] is commented out in the source (line 160), and
    [float(battery_shutdown)] is [battery_shutdown], a float already. *)
Definition shutdown_branch (battery_percentage power_calc : Q) : M Control :=
  if Qle_bool battery_percentage battery_shutdown then
    send_critical_alert (MCriticallyLow battery_percentage) ;;
    battery_low ;;
    if confirm_check battery_percentage power_calc then
      send_critical_alert (MShuttingDown battery_percentage) ;;
      ret Break
    else
      send_alert (MCharging battery_percentage) ;;
      ret Continue
  else ret Continue.

(** The body of the [while True] loop (lines 111-165). *)
Definition cycle : M Control :=
  bus_v <- read BusVoltage bus_voltage ;;
  shunt_v <- read ShuntVoltage shunt_voltage ;;
  cur <- read Current current ;;
  pow <- read Power power ;;
  report bus_v shunt_v cur pow (percent bus_v) ;;
  check_overflow ;;
  let battery_percentage := get_battery_percentage bus_v in
  let power_calc := get_power_calc bus_v cur in
  when (Qle_bool power_calc (-5.00))
    (print LNoInput ;;
     send_alert (MRunningOnBattery battery_percentage)) ;;
  when (Qle_bool battery_percentage battery_is_low)
    (print LRanBatteryPercentage ;;
     send_alert (MBatteryLow battery_percentage)) ;;
  c <- shutdown_branch battery_percentage power_calc ;;
  match c with
  | Break => ret Break
  | Continue => sleep battery_check_interval ;; ret Continue
  end.

(** [while True]: at most [fuel] iterations. *)
Fixpoint monitor (fuel : nat) : M Outcome :=
  match fuel with
  | O => ret Running
  | S fuel' =>
      c <- cycle ;;
      match c with
      | Break => ret Exited
      | Continue => monitor fuel'
      end
  end.

End Monitor.

(** ** Reading a trace *)

Definition is_shutdown (e : Event) : bool :=
  match e with Shutdown => true | _ => false end.

Definition is_read (e : Event) : bool :=
  match e with Read _ => true | _ => false end.

Definition is_console (e : Event) : bool :=
  match e with Console _ => true | _ => false end.

(** How many times the shutdown command was run. *)
Definition shutdown_count (tr : list Event) : nat :=
  length (filter is_shutdown tr).

(** The notifications of a trace, in order. *)
Fixpoint notifications (tr : list Event) : list (Urgency * Message) :=
  match tr with
  | [] => []
  | Notify u m :: tr' => (u, m) :: notifications tr'
  | _ :: tr' => notifications tr'
  end.

(** The seconds slept in a trace. *)
Fixpoint slept (tr : list Event) : nat :=
  match tr with
  | [] => 0
  | Sleep n :: tr' => n + slept tr'
  | _ :: tr' => slept tr'
  end.

(** A sample whose five accesses succeed. *)
Definition nominal (bus_v shunt_v cur pow : Q) (ov : bool) : Sample :=
  mkSample (Some bus_v) (Some shunt_v) (Some cur) (Some pow) (Some ov).

(** ** Descriptions used by the statements *)

(** What one run of [battery_low] adds to the trace. *)
Definition countdown_trace : list Event :=
  [ Console (LCountdown 10); Notify Normal (MCountdown 10); Sleep 3;
    Console (LCountdown 7);  Notify Normal (MCountdown 7);  Sleep 3;
    Console (LCountdown 4);  Notify Normal (MCountdown 4);  Sleep 3;
    Console (LCountdown 1);  Notify Normal (MCountdown 1);  Sleep 3 ].

(** What a cycle whose five register accesses succeed adds to the trace
    before it reaches line 155. *)
Definition cycle_prefix (bus_v shunt_v cur pow : Q) (ov : bool) : list Event :=
  [ Read BusVoltage; Read ShuntVoltage; Read Current; Read Power;
    Console (LVinPlus (bus_v + shunt_v));
    Console (LVinMinus bus_v);
    Console (LShuntVoltage shunt_v);
    Console (LShuntCurrent (cur / 1000));
    Console (LPowerCalc (bus_v * (cur / 1000)));
    Console (LPowerRegister pow);
    Console (LPercent (percent bus_v));
    Console LBlank;
    Read Overflow ] ++
  (if ov then [Console LOverflow; Console LBlank] else []) ++
  (if Qle_bool (get_power_calc bus_v cur) (-5.00)
   then [ Console LNoInput;
          Notify Normal (MRunningOnBattery (get_battery_percentage bus_v)) ]
   else []) ++
  (if Qle_bool (get_battery_percentage bus_v) battery_is_low
   then [ Console LRanBatteryPercentage;
          Notify Normal (MBatteryLow (get_battery_percentage bus_v)) ]
   else []).

(** Lines 155-165, run after the rest of the cycle. *)
Definition cycle_end (battery_percentage power_calc : Q) : M Control :=
  c <- shutdown_branch battery_percentage power_calc ;;
  match c with
  | Break => ret Break
  | Continue => sleep battery_check_interval ;; ret Continue
  end.

(** What lines 155-165 add to the trace when the shutdown branch is
    entered. *)
Definition confirm_trace (battery_percentage power_calc : Q) : list Event :=
  Notify Critical (MCriticallyLow battery_percentage) ::
  countdown_trace ++
  (if Qle_bool power_calc (-1.00)
   then [Notify Critical (MShuttingDown battery_percentage)]
   else [Notify Normal (MCharging battery_percentage);
         Sleep battery_check_interval]).

(** The control value of a cycle. *)
Definition control_of (r : Result Control) : option Control :=
  match r with Ok c _ => Some c | Raised _ _ => None end.

(** A battery at 3.0 V that discharges at 1 A, for ever. *)
Definition on_battery : Sensor :=
  fun _ => nominal 3.0 (-0.01) (-1000) 3.0 false.

(** The same battery, put on the charger one second later. *)
Definition plugged_in_late : Sensor :=
  fun t => match t with
           | O => nominal 3.0 (-0.01) (-1000) 3.0 false
           | S _ => nominal 3.0 0.01 1000 3.0 false
           end.

(** A battery at 3.11 V, where the estimate is 10 percent, on the
    charger. *)
Definition charging : Sensor :=
  fun _ => nominal 3.11 0.01 1000 3.11 false.

(** The first of the four accesses of lines 111-114 that raises. *)
Definition first_fault (s : Sample) : option Register :=
  match bus_voltage s, shunt_voltage s, current s, power s with
  | None, _, _, _ => Some BusVoltage
  | Some _, None, _, _ => Some ShuntVoltage
  | Some _, Some _, None, _ => Some Current
  | Some _, Some _, Some _, None => Some Power
  | Some _, Some _, Some _, Some _ => None
  end.

(** The accesses made up to and including the one of register [r]. *)
Definition reads_until (r : Register) : list Register :=
  match r with
  | BusVoltage => [BusVoltage]
  | ShuntVoltage => [BusVoltage; ShuntVoltage]
  | Current => [BusVoltage; ShuntVoltage; Current]
  | Power => [BusVoltage; ShuntVoltage; Current; Power]
  | Overflow => []
  end.

(** A sensor whose current register cannot be read. *)
Definition broken_current : Sensor :=
  fun _ => mkSample (Some 3.9) (Some 0.01) None (Some 1.2) (Some false).

(** A computation that never runs the shutdown command. *)
Definition no_shutdown {A : Type} (m : M A) : Prop :=
  forall w, shutdown_count (trace (final (m w))) = shutdown_count (trace w).

(** A battery at 3.11 V, where the estimate is 10 percent, that
    discharges at 1 A. *)
Definition critical_on_battery : Sensor :=
  fun _ => nominal 3.11 (-0.01) (-1000) 3.11 false.

(** A full battery at 4.2 V that discharges at 1.5 A. *)
Definition full_on_battery : Sensor :=
  fun _ => nominal 4.2 (-0.015) (-1500) 6.3 false.

(** ** Descriptions used by the further properties *)

(** What a cycle adds to the trace after [cycle_prefix] (lines 155-165). *)
Definition cycle_tail (battery_percentage power_calc : Q) : list Event :=
  if Qle_bool battery_percentage battery_shutdown
  then confirm_trace battery_percentage power_calc
  else [Sleep battery_check_interval].

(** The seconds a cycle sleeps. *)
Definition cycle_seconds (battery_percentage power_calc : Q) : nat :=
  if Qle_bool battery_percentage battery_shutdown
  then if Qle_bool power_calc (-1.00) then 12 else 12 + battery_check_interval
  else battery_check_interval.

(** The notifications of a cycle whose register accesses succeed, in the
    order of lines 142-163. *)
Definition cycle_alerts (battery_percentage power_calc : Q)
  : list (Urgency * Message) :=
  (if Qle_bool power_calc (-5.00)
   then [(Normal, MRunningOnBattery battery_percentage)] else []) ++
  (if Qle_bool battery_percentage battery_is_low
   then [(Normal, MBatteryLow battery_percentage)] else []) ++
  (if Qle_bool battery_percentage battery_shutdown
   then [ (Critical, MCriticallyLow battery_percentage);
          (Normal, MCountdown 10); (Normal, MCountdown 7);
          (Normal, MCountdown 4); (Normal, MCountdown 1);
          (if Qle_bool power_calc (-1.00)
           then (Critical, MShuttingDown battery_percentage)
           else (Normal, MCharging battery_percentage)) ]
   else []).

Definition is_on_battery_alert (a : Urgency * Message) : bool :=
  match a with (_, MRunningOnBattery _) => true | _ => false end.

Definition is_charging_alert (a : Urgency * Message) : bool :=
  match a with (_, MCharging _) => true | _ => false end.

(** The events of lines 111-131 when the five accesses are made. *)
Definition readings_trace (bus_v shunt_v cur pow : Q) : list Event :=
  [ Read BusVoltage; Read ShuntVoltage; Read Current; Read Power;
    Console (LVinPlus (bus_v + shunt_v));
    Console (LVinMinus bus_v);
    Console (LShuntVoltage shunt_v);
    Console (LShuntCurrent (cur / 1000));
    Console (LPowerCalc (bus_v * (cur / 1000)));
    Console (LPowerRegister pow);
    Console (LPercent (percent bus_v));
    Console LBlank;
    Read Overflow ].

(** The events of lines 142-149. *)
Definition alerts_trace (battery_percentage power_calc : Q) : list Event :=
  (if Qle_bool power_calc (-5.00)
   then [ Console LNoInput;
          Notify Normal (MRunningOnBattery battery_percentage) ]
   else []) ++
  (if Qle_bool battery_percentage battery_is_low
   then [ Console LRanBatteryPercentage;
          Notify Normal (MBatteryLow battery_percentage) ]
   else []).

(** A battery at 3.9 V on the charger. *)
Definition healthy : Sensor :=
  fun _ => nominal 3.9 0.01 500 1.95 false.

(** A battery at 3.2 V that discharges at 0.5 A: low, not critical. *)
Definition low_not_critical : Sensor :=
  fun _ => nominal 3.2 (-0.005) (-500) 1.6 false.

(** The healthy battery, with the overflow flag set. *)
Definition healthy_overflow : Sensor :=
  fun _ => nominal 3.9 0.01 500 1.95 true.

(** A critical battery whose overflow flag cannot be read. *)
Definition broken_overflow : Sensor :=
  fun _ => mkSample (Some 3.0) (Some (-0.01)) (Some (-1000)) (Some 3.0) None.

(** ** The script with a notifier that can fail *)

(** What a call of [subprocess.run] on [notify-send] can do (lines 83
    and 87: no [check=True], and no [try] anywhere in the script). *)
Inductive NotifyOutcome : Type :=
| Delivered
| ExitNonZero     (* notify-send ran and failed: its status is discarded *)
| CannotExecute.  (* notify-send cannot be run: subprocess.run raises *)

(** The desktop, as the sensor: what a call made at an instant does. *)
Definition Notifier : Type := nat -> Urgency -> Message -> NotifyOutcome.

Section Live.

Variable ina219 : Sensor.
Variable notify_send : Notifier.

(** One call of [subprocess.run] on [notify-send]; the trace keeps the
    call, whatever became of it. *)
Definition notify (u : Urgency) (m : Message) : M unit :=
  fun w =>
    let w' := mkWorld (now w) (trace w ++ [Notify u m]) in
    match notify_send (now w) u m with
    | CannotExecute => Raised NotifierError w'
    | Delivered | ExitNonZero => Ok tt w'
    end.

(** [send_alert] (line 82). *)
Definition live_send_alert (m : Message) : M unit := notify Normal m.

(** [send_critical_alert] (line 86). *)
Definition live_send_critical_alert (m : Message) : M unit := notify Critical m.

(** [battery_low] (lines 93-99). *)
Definition live_battery_low : M unit :=
  for_each (py_range 10 0 (-3)) (fun i =>
    print (LCountdown i) ;;
    live_send_alert (MCountdown i) ;;
    sleep 3).

(** Lines 155-163. *)
Definition live_shutdown_branch (battery_percentage power_calc : Q) : M Control :=
  if Qle_bool battery_percentage battery_shutdown then
    live_send_critical_alert (MCriticallyLow battery_percentage) ;;
    live_battery_low ;;
    if confirm_check battery_percentage power_calc then
      live_send_critical_alert (MShuttingDown battery_percentage) ;;
      ret Break
    else
      live_send_alert (MCharging battery_percentage) ;;
      ret Continue
  else ret Continue.

(** The body of the [while True] loop (lines 111-165). *)
Definition live_cycle : M Control :=
  bus_v <- read ina219 BusVoltage bus_voltage ;;
  shunt_v <- read ina219 ShuntVoltage shunt_voltage ;;
  cur <- read ina219 Current current ;;
  pow <- read ina219 Power power ;;
  report bus_v shunt_v cur pow (percent bus_v) ;;
  check_overflow ina219 ;;
  let battery_percentage := get_battery_percentage bus_v in
  let power_calc := get_power_calc bus_v cur in
  when (Qle_bool power_calc (-5.00))
    (print LNoInput ;;
     live_send_alert (MRunningOnBattery battery_percentage)) ;;
  when (Qle_bool battery_percentage battery_is_low)
    (print LRanBatteryPercentage ;;
     live_send_alert (MBatteryLow battery_percentage)) ;;
  c <- live_shutdown_branch battery_percentage power_calc ;;
  match c with
  | Break => ret Break
  | Continue => sleep battery_check_interval ;; ret Continue
  end.

(** [while True]: at most [fuel] iterations. *)
Fixpoint live_monitor (fuel : nat) : M Outcome :=
  match fuel with
  | O => ret Running
  | S fuel' =>
      c <- live_cycle ;;
      match c with
      | Break => ret Exited
      | Continue => live_monitor fuel'
      end
  end.

End Live.

(** A notifier whose calls all return. *)
Definition returns (notify_send : Notifier) : Prop :=
  forall t u m, notify_send t u m <> CannotExecute.

(** No desktop session: every call runs and fails. *)
Definition notify_send_fails : Notifier := fun _ _ _ => ExitNonZero.

(** notify-send is not installed: every call raises. *)
Definition notify_send_missing : Notifier := fun _ _ _ => CannotExecute.

(** * Properties *)

(** ** Comparisons *)

Lemma Qlt_bool_iff (x y : Q) : Qlt_bool x y = true <-> x < y.
Proof.
  unfold Qlt_bool. rewrite negb_true_iff, <- not_true_iff_false, Qle_bool_iff.
  split; [apply Qnot_le_lt | apply Qlt_not_le].
Qed.

Lemma Qle_bool_false_iff (x y : Q) : Qle_bool x y = false <-> y < x.
Proof.
  rewrite <- not_true_iff_false, Qle_bool_iff.
  split; [apply Qnot_le_lt | apply Qlt_not_le].
Qed.

Lemma Qlt_bool_false_iff (x y : Q) : Qlt_bool x y = false <-> y <= x.
Proof. unfold Qlt_bool. rewrite negb_false_iff. apply Qle_bool_iff. Qed.

(** Turns the boolean comparisons of the context into propositions. *)
Ltac qprop :=
  repeat match goal with
  | H : Qle_bool _ _ = true |- _ => apply Qle_bool_iff in H
  | H : Qle_bool _ _ = false |- _ => apply Qle_bool_false_iff in H
  | H : Qlt_bool _ _ = true |- _ => apply Qlt_bool_iff in H
  | H : Qlt_bool _ _ = false |- _ => apply Qlt_bool_false_iff in H
  end.


(** ** The charge estimate *)

Lemma get_battery_percentage_linear (v : Q) :
  get_battery_percentage v == (v - 3) * (1000 # 11).
Proof. unfold get_battery_percentage. field. Qed.

Lemma clamp_in_range (p : Q) : 0 <= clamp p <= 100.
Proof.
  unfold clamp.
  destruct (Qlt_bool 98 p) eqn:Hhi.
  - change (Qlt_bool 100 0) with false. cbv beta iota zeta. lra.
  - destruct (Qlt_bool p 0) eqn:Hlo; qprop; lra.
Qed.

(** The percentage printed by the loop always lies in [0,100]. *)
Lemma percent_in_range (v : Q) : 0 <= percent v <= 100.
Proof. apply clamp_in_range. Qed.

Lemma clamp_high (p : Q) : 98 < p -> clamp p = 100.
Proof.
  intros H. unfold clamp. apply Qlt_bool_iff in H. rewrite H. reflexivity.
Qed.

Lemma clamp_negative (p : Q) : p < 0 -> clamp p = 0.
Proof.
  intros H. unfold clamp.
  assert (Hhi : Qlt_bool 98 p = false) by (apply Qlt_bool_false_iff; lra).
  rewrite Hhi. apply Qlt_bool_iff in H. rewrite H. reflexivity.
Qed.

(** C2. The function [get_battery_percentage], whose value is put in the
    alerts and compared with the thresholds, returns the interpolation
    as it is: at 4.2 V it is above 100 and at 2.9 V below 0, where the
    clamped [percent] of the loop gives 100 and 0. *)
Theorem get_battery_percentage_not_clamped :
  100 < get_battery_percentage 4.2 /\ percent 4.2 = 100 /\
  get_battery_percentage 2.9 < 0 /\ percent 2.9 = 0.
Proof. repeat split; reflexivity. Qed.

Lemma clamp_monotone (p q : Q) : p <= q -> clamp p <= clamp q.
Proof.
  intros Hpq. unfold clamp.
  destruct (Qlt_bool 98 p) eqn:Hp; destruct (Qlt_bool 98 q) eqn:Hq;
    cbv beta iota zeta; try change (Qlt_bool 100 0) with false;
    cbv beta iota zeta;
    try (destruct (Qlt_bool p 0) eqn:Hp0);
    try (destruct (Qlt_bool q 0) eqn:Hq0);
    qprop; lra.
Qed.

(** C8. The estimate is monotone: of two voltages of the reference
    range [3.0, 4.1], the higher never gives the lower percentage; this
    holds for the value of [get_battery_percentage] and for the clamped
    [percent] of the loop. *)
Theorem get_battery_percentage_monotone (v1 v2 : Q) :
  3.0 <= v1 <= 4.1 -> 3.0 <= v2 <= 4.1 -> v1 < v2 ->
  get_battery_percentage v1 <= get_battery_percentage v2 /\
  percent v1 <= percent v2.
Proof.
  intros _ _ Hlt.
  assert (H : get_battery_percentage v1 <= get_battery_percentage v2).
  { rewrite !get_battery_percentage_linear. lra. }
  split; [exact H |]. apply clamp_monotone. exact H.
Qed.

Lemma get_battery_percentage_monotone_witness :
  3.2 < 3.9 /\
  get_battery_percentage 3.2 <= get_battery_percentage 3.9 /\
  percent 3.2 <= percent 3.9.
Proof.
  split; [reflexivity |].
  apply (get_battery_percentage_monotone 3.2 3.9);
    [split; discriminate | split; discriminate | reflexivity].
Defined.

(** ** Traces *)

Lemma notifications_app (tr1 tr2 : list Event) :
  notifications (tr1 ++ tr2) = notifications tr1 ++ notifications tr2.
Proof.
  induction tr1 as [| e tr1 IH]; [reflexivity |].
  destruct e; simpl; rewrite IH; reflexivity.
Qed.

Lemma slept_app (tr1 tr2 : list Event) :
  slept (tr1 ++ tr2) = (slept tr1 + slept tr2)%nat.
Proof.
  induction tr1 as [| e tr1 IH]; [reflexivity |].
  destruct e; simpl; rewrite IH; lia.
Qed.

Lemma shutdown_count_app (tr1 tr2 : list Event) :
  shutdown_count (tr1 ++ tr2) = (shutdown_count tr1 + shutdown_count tr2)%nat.
Proof. unfold shutdown_count. rewrite filter_app, length_app. reflexivity. Qed.

(** ** The countdown *)

Lemma countdown_steps : py_range 10 0 (-3) = [10; 7; 4; 1]%Z.
Proof. reflexivity. Qed.

Lemma battery_low_run (w : World) :
  battery_low w = Ok tt (mkWorld (now w + 12) (trace w ++ countdown_trace)).
Proof.
  unfold battery_low. rewrite countdown_steps.
  cbv [for_each bind print send_alert emit sleep ret now trace].
  rewrite <- !app_assoc. cbn [app].
  do 2 f_equal. lia.
Qed.

(** C4. The countdown announces 10, 7, 4 and 1 and sleeps 3 seconds
    after each of the four announcements, the last one included: it
    lasts 12 seconds, not 10. It reads no register. *)
Theorem battery_low_lasts_12_seconds (w : World) :
  battery_low w = Ok tt (mkWorld (now w + 12) (trace w ++ countdown_trace)) /\
  slept countdown_trace = 12%nat /\
  filter is_read countdown_trace = [] /\
  filter is_console countdown_trace =
    map (fun i => Console (LCountdown i)) [10; 7; 4; 1]%Z.
Proof.
  split; [apply battery_low_run |]. repeat split; reflexivity.
Qed.

(** C5, as the code has it. The four notifications of the countdown are
    sent with [send_alert]: they are of the normal kind, which disappears
    after two seconds, not of the critical kind. *)
Theorem battery_low_notifications_normal (w : World) :
  notifications (trace (final (battery_low w))) =
  notifications (trace w) ++
    [ (Normal, MCountdown 10); (Normal, MCountdown 7);
      (Normal, MCountdown 4); (Normal, MCountdown 1) ].
Proof.
  rewrite battery_low_run. cbn [final trace].
  rewrite notifications_app. reflexivity.
Qed.

(** C5, as stated, fails: the first notification of a countdown is not
    critical. *)
Lemma battery_low_notification_not_critical :
  ~ (forall u m,
       In (u, m) (notifications (trace (final (battery_low (boot 0))))) ->
       u = Critical).
Proof.
  intros H. specialize (H Normal (MCountdown 10)).
  assert (Hin : In (Normal, MCountdown 10)
                   (notifications (trace (final (battery_low (boot 0)))))).
  { rewrite battery_low_run. left. reflexivity. }
  apply H in Hin. discriminate Hin.
Qed.

(** ** The shutdown branch *)

Lemma confirm_check_entered (pct pw : Q) :
  Qle_bool pct battery_shutdown = true ->
  confirm_check pct pw = Qle_bool pw (-1.00).
Proof. intros H. unfold confirm_check. rewrite H. reflexivity. Qed.

(** The three ways through lines 155-163. *)
Lemma shutdown_branch_run (pct pw : Q) (w : World) :
  shutdown_branch pct pw w =
  if Qle_bool pct battery_shutdown then
    if Qle_bool pw (-1.00) then
      Ok Break
        (mkWorld (now w + 12)
           (trace w ++ Notify Critical (MCriticallyLow pct) ::
              countdown_trace ++ [Notify Critical (MShuttingDown pct)]))
    else
      Ok Continue
        (mkWorld (now w + 12)
           (trace w ++ Notify Critical (MCriticallyLow pct) ::
              countdown_trace ++ [Notify Normal (MCharging pct)]))
  else Ok Continue w.
Proof.
  unfold shutdown_branch.
  destruct (Qle_bool pct battery_shutdown) eqn:Hpct; [| reflexivity].
  rewrite (confirm_check_entered pct pw Hpct).
  unfold bind at 1. cbv [send_critical_alert emit].
  unfold bind at 1. rewrite battery_low_run.
  destruct (Qle_bool pw (-1.00));
    cbv [bind send_critical_alert send_alert emit ret now trace];
    rewrite <- !app_assoc; reflexivity.
Qed.

(** ** One cycle *)

Lemma cycle_run (ina219 : Sensor) (w : World) (bus_v shunt_v cur pow : Q) (ov : bool) :
  ina219 (now w) = nominal bus_v shunt_v cur pow ov ->
  cycle ina219 w =
  cycle_end (get_battery_percentage bus_v) (get_power_calc bus_v cur)
    (mkWorld (now w) (trace w ++ cycle_prefix bus_v shunt_v cur pow ov)).
Proof.
  intros Hs. unfold cycle, cycle_prefix. fold (cycle_end (get_battery_percentage bus_v) (get_power_calc bus_v cur)).
  unfold nominal in Hs.
  unfold report, check_overflow, bind, read, print, emit. cbn [now trace].
  repeat (rewrite Hs;
          cbn [bus_voltage shunt_voltage current power overflow now trace]).
  destruct ov;
    destruct (Qle_bool (get_power_calc bus_v cur) (-5.00));
    destruct (Qle_bool (get_battery_percentage bus_v) battery_is_low);
    unfold when, bind, print, send_alert, emit, ret; cbn [now trace];
    rewrite <- ?app_assoc; reflexivity.
Qed.

Lemma cycle_end_run (pct pw : Q) (w : World) :
  cycle_end pct pw w =
  if Qle_bool pct battery_shutdown then
    if Qle_bool pw (-1.00) then
      Ok Break (mkWorld (now w + 12) (trace w ++ confirm_trace pct pw))
    else
      Ok Continue (mkWorld (now w + 12 + battery_check_interval)
                     (trace w ++ confirm_trace pct pw))
  else
    Ok Continue (mkWorld (now w + battery_check_interval)
                   (trace w ++ [Sleep battery_check_interval])).
Proof.
  unfold cycle_end, bind, confirm_trace. rewrite shutdown_branch_run.
  destruct (Qle_bool pct battery_shutdown); [| reflexivity].
  destruct (Qle_bool pw (-1.00)); unfold sleep, bind, ret; cbn [now trace];
    rewrite <- ?app_assoc; reflexivity.
Qed.

Lemma monitor_step (ina219 : Sensor) (fuel : nat) (w w' : World) :
  cycle ina219 w = Ok Continue w' ->
  monitor ina219 (S fuel) w = monitor ina219 fuel w'.
Proof. intros H. cbn [monitor]. unfold bind. rewrite H. reflexivity. Qed.

Lemma monitor_break (ina219 : Sensor) (fuel : nat) (w w' : World) :
  cycle ina219 w = Ok Break w' ->
  monitor ina219 (S fuel) w = Ok Exited w'.
Proof. intros H. cbn [monitor]. unfold bind. rewrite H. reflexivity. Qed.

Lemma monitor_raise (ina219 : Sensor) (fuel : nat) (w w' : World) (e : Exn) :
  cycle ina219 w = Raised e w' ->
  monitor ina219 (S fuel) w = Raised e w'.
Proof. intros H. cbn [monitor]. unfold bind. rewrite H. reflexivity. Qed.

(** ** The confirm check *)

Lemma shutdown_branch_skipped (pct pw : Q) (w : World) :
  battery_shutdown < pct -> shutdown_branch pct pw w = Ok Continue w.
Proof.
  intros H. apply Qle_bool_false_iff in H.
  rewrite shutdown_branch_run, H. reflexivity.
Qed.

(** C10. The test of line 158 is reached only through lines 156-157,
    which leave the critical warning and the countdown in the trace: a
    run of the branch that adds anything to the trace has run the test,
    and a run that adds nothing has not. Whenever the branch has added
    to the trace, the percentage was at or under [battery_shutdown], so
    the percentage conjunct of the test was true, the test had the value
    of its power conjunct, the branch left the loop exactly when the
    power was at or under -1.0, and the arm the test chose sent the
    last alert of the trace. *)
Theorem confirm_check_reached_only_under_guard (pct pw : Q) (w : World) :
  let r := shutdown_branch pct pw w in
  trace (final r) <> trace w ->
  pct <= battery_shutdown /\
  Qle_bool pct battery_shutdown = true /\
  confirm_check pct pw = Qle_bool pw (-1.00) /\
  (control_of r = Some Break <-> pw <= -1.00) /\
  (control_of r = Some Continue <-> -1.00 < pw) /\
  trace (final r) =
    trace w ++ Notify Critical (MCriticallyLow pct) :: countdown_trace ++
    [if Qle_bool pw (-1.00)
     then Notify Critical (MShuttingDown pct)
     else Notify Normal (MCharging pct)].
Proof.
  intros r Hran. subst r. rewrite shutdown_branch_run in *.
  destruct (Qle_bool pct battery_shutdown) eqn:Hpct;
    [| exfalso; apply Hran; reflexivity].
  split; [apply Qle_bool_iff; exact Hpct |].
  split; [reflexivity |].
  split; [apply confirm_check_entered; exact Hpct |].
  destruct (Qle_bool pw (-1.00)) eqn:Hpw; cbn [control_of final trace]; qprop;
    repeat split; intros H; try discriminate H; try reflexivity;
    try exact Hpw; lra.
Qed.

Lemma confirm_check_reached_only_under_guard_witness :
  trace (final (shutdown_branch 0 (-3) (boot 0))) <> trace (boot 0) /\
  0 <= battery_shutdown /\
  Qle_bool 0 battery_shutdown = true /\
  confirm_check 0 (-3) = Qle_bool (-3) (-1.00) /\
  (control_of (shutdown_branch 0 (-3) (boot 0)) = Some Break <-> -3 <= -1.00) /\
  (control_of (shutdown_branch 0 (-3) (boot 0)) = Some Continue <-> -1.00 < -3) /\
  trace (final (shutdown_branch 0 (-3) (boot 0))) =
    trace (boot 0) ++ Notify Critical (MCriticallyLow 0) :: countdown_trace ++
    [if Qle_bool (-3) (-1.00)
     then Notify Critical (MShuttingDown 0)
     else Notify Normal (MCharging 0)].
Proof.
  assert (Hran : trace (final (shutdown_branch 0 (-3) (boot 0))) <> trace (boot 0)).
  { rewrite shutdown_branch_run. cbn. discriminate. }
  split; [exact Hran |].
  apply (confirm_check_reached_only_under_guard 0 (-3) (boot 0) Hran).
Defined.

(** The branch not entered: with the percentage above
    [battery_shutdown] the test of line 158 is not run, whatever the
    power, and the branch changes nothing. *)
Lemma confirm_check_not_reached_above_guard (pct pw : Q) (w : World) :
  battery_shutdown < pct ->
  shutdown_branch pct pw w = Ok Continue w /\
  confirm_check pct pw = false.
Proof.
  intros H. split; [apply shutdown_branch_skipped, H |].
  unfold confirm_check. apply Qle_bool_false_iff in H. rewrite H. reflexivity.
Qed.

(** A cycle whose accesses succeed and which enters the shutdown
    branch, in full. *)
Lemma cycle_critical_run (ina219 : Sensor) (w : World)
      (bus_v shunt_v cur pow : Q) (ov : bool) :
  ina219 (now w) = nominal bus_v shunt_v cur pow ov ->
  get_battery_percentage bus_v <= battery_shutdown ->
  let pct := get_battery_percentage bus_v in
  let pw := get_power_calc bus_v cur in
  cycle ina219 w =
  Ok (if Qle_bool pw (-1.00) then Break else Continue)
     (mkWorld (now w + 12 + (if Qle_bool pw (-1.00) then 0 else battery_check_interval))
        (trace w ++ cycle_prefix bus_v shunt_v cur pow ov ++ confirm_trace pct pw)).
Proof.
  intros Hs Hpct pct pw. apply Qle_bool_iff in Hpct.
  rewrite (cycle_run ina219 w bus_v shunt_v cur pow ov Hs), cycle_end_run.
  fold pct pw. fold pct in Hpct. rewrite Hpct. cbn [now trace].
  rewrite <- app_assoc.
  destruct (Qle_bool pw (-1.00)); [rewrite Nat.add_0_r |]; reflexivity.
Qed.

Lemma filter_is_read_confirm_trace (pct pw : Q) :
  filter is_read (confirm_trace pct pw) = [].
Proof. unfold confirm_trace. destruct (Qle_bool pw (-1.00)); reflexivity. Qed.

(** C3. The cycle is a function of the sample read at its start: two
    sensors that agree at that instant give the same cycle, whatever
    they show during and after the countdown. When the shutdown branch
    is entered, the test after the countdown is decided by the power
    computed from that sample, the alert it sends carries the percentage
    computed from that sample, and no register is read between the
    entry of the branch and the end of the cycle, 12 seconds or more
    after the sample was taken. *)
Theorem confirm_reuses_cycle_sample (s1 s2 : Sensor) (w : World)
        (bus_v shunt_v cur pow : Q) (ov : bool) :
  s1 (now w) = nominal bus_v shunt_v cur pow ov ->
  s2 (now w) = s1 (now w) ->
  get_battery_percentage bus_v <= battery_shutdown ->
  let pct := get_battery_percentage bus_v in
  let pw := get_power_calc bus_v cur in
  cycle s2 w = cycle s1 w /\
  exists w',
    cycle s1 w = Ok (if Qle_bool pw (-1.00) then Break else Continue) w' /\
    trace w' = trace w ++ cycle_prefix bus_v shunt_v cur pow ov ++ confirm_trace pct pw /\
    filter is_read (confirm_trace pct pw) = [] /\
    (now w + 12 <= now w')%nat.
Proof.
  intros Hs1 Hs2 Hpct pct pw. rewrite Hs1 in Hs2.
  rewrite (cycle_critical_run s1 w bus_v shunt_v cur pow ov Hs1 Hpct).
  rewrite (cycle_critical_run s2 w bus_v shunt_v cur pow ov Hs2 Hpct).
  split; [reflexivity |].
  eexists. split; [reflexivity |]. cbn [now trace].
  split; [reflexivity |].
  split; [apply filter_is_read_confirm_trace | lia].
Qed.

Lemma confirm_reuses_cycle_sample_witness :
  cycle plugged_in_late (boot 0) = cycle on_battery (boot 0) /\
  exists w',
    cycle on_battery (boot 0) = Ok Break w' /\
    trace w' = trace (boot 0) ++ cycle_prefix 3.0 (-0.01) (-1000) 3.0 false ++
               confirm_trace (get_battery_percentage 3.0)
                 (get_power_calc 3.0 (-1000)) /\
    filter is_read (confirm_trace (get_battery_percentage 3.0)
                      (get_power_calc 3.0 (-1000))) = [] /\
    (now (boot 0) + 12 <= now w')%nat.
Proof.
  apply (confirm_reuses_cycle_sample on_battery plugged_in_late (boot 0)
           3.0 (-0.01) (-1000) 3.0 false);
    [reflexivity | reflexivity | discriminate].
Defined.

(** ** Power restored: scenario C *)

(** C6. When the shutdown branch is entered and the power computed from
    the cycle's sample is above -1.0, the cycle sends the critical
    warning, counts down, sends the normal "charging" alert, sleeps the
    check interval and the loop goes on with the next cycle; it neither
    sends the "shutting down" alert nor runs the shutdown command. *)
Theorem power_restored_resumes_monitoring (ina219 : Sensor) (w : World)
        (bus_v shunt_v cur pow : Q) (ov : bool) :
  ina219 (now w) = nominal bus_v shunt_v cur pow ov ->
  get_battery_percentage bus_v <= battery_shutdown ->
  -1.00 < get_power_calc bus_v cur ->
  let pct := get_battery_percentage bus_v in
  exists w',
    cycle ina219 w = Ok Continue w' /\
    trace w' = trace w ++ cycle_prefix bus_v shunt_v cur pow ov ++
               Notify Critical (MCriticallyLow pct) :: countdown_trace ++
               [Notify Normal (MCharging pct); Sleep battery_check_interval] /\
    shutdown_count (trace w') = shutdown_count (trace w) /\
    (forall fuel, monitor ina219 (S fuel) w = monitor ina219 fuel w').
Proof.
  intros Hs Hpct Hpw pct.
  pose proof (cycle_critical_run ina219 w bus_v shunt_v cur pow ov Hs Hpct) as Hrun.
  cbv zeta in Hrun. fold pct in Hrun.
  apply Qle_bool_false_iff in Hpw.
  unfold confirm_trace in Hrun. rewrite Hpw in Hrun.
  eexists. split; [exact Hrun |]. cbn [trace].
  split; [reflexivity |]. split.
  - rewrite !shutdown_count_app. unfold cycle_prefix.
    rewrite !shutdown_count_app.
    destruct ov; destruct (Qle_bool (get_power_calc bus_v cur) (-5.00));
      destruct (Qle_bool (get_battery_percentage bus_v) battery_is_low);
      cbn; lia.
  - intros fuel. apply monitor_step. exact Hrun.
Qed.

Lemma power_restored_resumes_monitoring_witness :
  exists w',
    cycle charging (boot 0) = Ok Continue w' /\
    trace w' = trace (boot 0) ++ cycle_prefix 3.11 0.01 1000 3.11 false ++
               Notify Critical (MCriticallyLow (get_battery_percentage 3.11)) ::
               countdown_trace ++
               [Notify Normal (MCharging (get_battery_percentage 3.11));
                Sleep battery_check_interval] /\
    shutdown_count (trace w') = shutdown_count (trace (boot 0)) /\
    (forall fuel, monitor charging (S fuel) (boot 0) = monitor charging fuel w').
Proof.
  apply (power_restored_resumes_monitoring charging (boot 0) 3.11 0.01 1000 3.11 false);
    [reflexivity | discriminate | reflexivity].
Defined.

(** ** Sensor faults *)

Lemma cycle_fault (ina219 : Sensor) (w : World) (r : Register) :
  first_fault (ina219 (now w)) = Some r ->
  cycle ina219 w =
  Raised (SensorFault r) (mkWorld (now w) (trace w ++ map Read (reads_until r))).
Proof.
  intros Hf. unfold first_fault in Hf.
  destruct (ina219 (now w)) as [b s c p o] eqn:Hs.
  cbn [bus_voltage shunt_voltage current power] in Hf.
  unfold cycle, bind, read. cbn [now trace].
  destruct b as [b |]; [destruct s as [s |]; [destruct c as [c |];
    [destruct p as [p |]; [discriminate Hf |] |] |] |];
    injection Hf as <-;
    repeat (rewrite Hs;
            cbn [bus_voltage shunt_voltage current power overflow now trace]);
    rewrite <- ?app_assoc; reflexivity.
Qed.

(** C9. When one of the four register accesses at the top of a cycle
    raises, the exception leaves the loop: the script ends with it,
    however many iterations were still to come. The trace only gains the
    accesses made up to the failing one, each made once; nothing is
    printed or notified, the clock does not move and no later cycle
    runs. *)
Theorem sensor_fault_ends_monitor (ina219 : Sensor) (w : World)
        (r : Register) (fuel : nat) :
  first_fault (ina219 (now w)) = Some r ->
  monitor ina219 (S fuel) w =
  Raised (SensorFault r)
    (mkWorld (now w) (trace w ++ map Read (reads_until r))).
Proof. intros Hf. apply monitor_raise, cycle_fault, Hf. Qed.

Lemma sensor_fault_ends_monitor_witness :
  first_fault (broken_current 0%nat) = Some Current /\
  monitor broken_current 5 (boot 0) =
  Raised (SensorFault Current)
    (mkWorld 0 [Read BusVoltage; Read ShuntVoltage; Read Current]).
Proof.
  split; [reflexivity |].
  apply (sensor_fault_ends_monitor broken_current (boot 0) Current 4).
  reflexivity.
Defined.

(** ** The shutdown command *)

Lemma no_shutdown_ret {A : Type} (a : A) : no_shutdown (ret a).
Proof. intros w. reflexivity. Qed.

Lemma no_shutdown_bind {A B : Type} (m : M A) (f : A -> M B) :
  no_shutdown m -> (forall a, no_shutdown (f a)) -> no_shutdown (bind m f).
Proof.
  intros Hm Hf w. unfold bind. specialize (Hm w).
  destruct (m w) as [a w1 | e w1]; cbn [final] in *.
  - rewrite Hf. exact Hm.
  - exact Hm.
Qed.

Lemma no_shutdown_emit (e : Event) :
  is_shutdown e = false -> no_shutdown (emit e).
Proof.
  intros He w. unfold emit. cbn [final trace].
  rewrite shutdown_count_app. unfold shutdown_count at 2. cbn [filter].
  rewrite He. cbn [length]. lia.
Qed.

Lemma no_shutdown_sleep (n : nat) : no_shutdown (sleep n).
Proof.
  intros w. unfold sleep. cbn [final trace].
  rewrite shutdown_count_app. cbn. lia.
Qed.

Lemma no_shutdown_read {A : Type} (ina219 : Sensor) (r : Register)
      (field : Sample -> option A) :
  no_shutdown (read ina219 r field).
Proof.
  intros w. unfold read.
  destruct (field (ina219 (now w))); cbn [final trace];
    rewrite shutdown_count_app; cbn; lia.
Qed.

Lemma no_shutdown_when (b : bool) (m : M unit) :
  no_shutdown m -> no_shutdown (when b m).
Proof. intros Hm. destruct b; [exact Hm | apply no_shutdown_ret]. Qed.

Lemma no_shutdown_for_each {A : Type} (xs : list A) (body : A -> M unit) :
  (forall x, no_shutdown (body x)) -> no_shutdown (for_each xs body).
Proof.
  intros Hbody. induction xs as [| x xs IH]; cbn [for_each].
  - apply no_shutdown_ret.
  - apply no_shutdown_bind; [apply Hbody | intros _; exact IH].
Qed.

Create HintDb quiet.
#[local] Hint Resolve no_shutdown_ret no_shutdown_sleep no_shutdown_read
  no_shutdown_when no_shutdown_for_each : quiet.
#[local] Hint Extern 1 (no_shutdown (emit _)) =>
  apply no_shutdown_emit; reflexivity : quiet.
#[local] Hint Extern 2 (no_shutdown (bind _ _)) =>
  apply no_shutdown_bind; [| intro] : quiet.

Lemma no_shutdown_battery_low : no_shutdown battery_low.
Proof. unfold battery_low, print, send_alert. auto 10 with quiet. Qed.

Lemma no_shutdown_shutdown_branch (pct pw : Q) :
  no_shutdown (shutdown_branch pct pw).
Proof.
  pose proof no_shutdown_battery_low.
  unfold shutdown_branch, send_critical_alert, send_alert.
  destruct (Qle_bool pct battery_shutdown); [| auto with quiet].
  destruct (confirm_check pct pw); auto 10 with quiet.
Qed.

Lemma no_shutdown_cycle (ina219 : Sensor) : no_shutdown (cycle ina219).
Proof.
  unfold cycle, report, check_overflow, print, send_alert.
  repeat (apply no_shutdown_bind; [solve [auto 10 with quiet] | intro]).
  cbv zeta.
  repeat (apply no_shutdown_bind; [solve [auto 10 with quiet] | intro]).
  apply no_shutdown_bind; [apply no_shutdown_shutdown_branch |].
  intros [|]; auto with quiet.
Qed.

(** However long the loop runs and whatever the sensor shows, the
    shutdown command is never run. *)
Lemma no_shutdown_monitor (ina219 : Sensor) (fuel : nat) :
  no_shutdown (monitor ina219 fuel).
Proof.
  induction fuel as [| fuel IH]; cbn [monitor].
  - apply no_shutdown_ret.
  - apply no_shutdown_bind; [apply no_shutdown_cycle |].
    intros [|]; [exact IH | apply no_shutdown_ret].
Qed.

(** ** Still on battery: scenario D *)

(** C1. With the estimate at [battery_shutdown] and a power of -3.11,
    the first cycle sends the final critical alert and leaves the loop
    for good, whatever the number of iterations allowed; but the trace
    holds no shutdown command: the script ends without running it. *)
Theorem scenario_D_runs_no_shutdown_command :
  get_battery_percentage 3.11 <= battery_shutdown /\
  get_power_calc 3.11 (-1000) <= -1.00 /\
  exists w',
    (forall fuel, monitor critical_on_battery (S fuel) (boot 0) = Ok Exited w') /\
    notifications (trace w') =
      [ (Normal, MBatteryLow (get_battery_percentage 3.11));
        (Critical, MCriticallyLow (get_battery_percentage 3.11));
        (Normal, MCountdown 10); (Normal, MCountdown 7);
        (Normal, MCountdown 4); (Normal, MCountdown 1);
        (Critical, MShuttingDown (get_battery_percentage 3.11)) ] /\
    shutdown_count (trace w') = 0%nat.
Proof.
  split; [discriminate |]. split; [discriminate |].
  eexists. split; [| split].
  - intros fuel. apply monitor_break.
    apply (cycle_critical_run critical_on_battery (boot 0)
             3.11 (-0.01) (-1000) 3.11 false); [reflexivity | discriminate].
  - reflexivity.
  - reflexivity.
Qed.

(** ** An estimate out of range in an alert *)

(** At 4.2 V and -6.3 W the cycle prints a percentage of 100 and sends
    a "running on battery" alert that carries the estimate as
    [get_battery_percentage] returned it, above 100. *)
Lemma alert_carries_unclamped_estimate :
  exists w',
    cycle full_on_battery (boot 0) = Ok Continue w' /\
    In (Console (LPercent 100)) (trace w') /\
    notifications (trace w') =
      [(Normal, MRunningOnBattery (get_battery_percentage 4.2))] /\
    100 < get_battery_percentage 4.2.
Proof.
  eexists. split; [vm_compute; reflexivity |].
  split; [| split; reflexivity].
  cbn [trace]. do 10 right. left. reflexivity.
Qed.

(** * Further properties *)

(** ** The printed percentage and the thresholds *)

(** X1. The percentage printed by the loop is 0 under an estimate of 0,
    the estimate itself from 0 to 98, and 100 above 98: it lies in
    [0,100] and never strictly between 98 and 100. *)
Theorem percent_saturates (v : Q) :
  (get_battery_percentage v < 0 /\ percent v = 0) \/
  (0 <= get_battery_percentage v <= 98 /\
   percent v = get_battery_percentage v) \/
  (98 < get_battery_percentage v /\ percent v = 100).
Proof.
  change (percent v) with (clamp (get_battery_percentage v)).
  generalize (get_battery_percentage v). intros p.
  destruct (Qlt_bool 98 p) eqn:Hhi.
  - right. right. qprop. split; [exact Hhi | apply clamp_high, Hhi].
  - destruct (Qlt_bool p 0) eqn:Hlo.
    + left. qprop. split; [exact Hlo | apply clamp_negative, Hlo].
    + right. left. unfold clamp. rewrite Hhi, Hlo. qprop.
      split; [split; assumption | reflexivity].
Qed.

(** X2. The clamp changes no decision: the printed percentage and the
    estimate returned by [get_battery_percentage] stand on the same side
    of [battery_is_low] and of [battery_shutdown]. *)
Theorem clamp_keeps_threshold_decisions (v : Q) :
  Qle_bool (percent v) battery_is_low =
    Qle_bool (get_battery_percentage v) battery_is_low /\
  Qle_bool (percent v) battery_shutdown =
    Qle_bool (get_battery_percentage v) battery_shutdown.
Proof.
  destruct (percent_saturates v) as [[Hp ->] | [[Hp ->] | [Hp ->]]].
  - split; symmetry; apply Qle_bool_iff;
      unfold battery_is_low, battery_shutdown; lra.
  - split; reflexivity.
  - split; symmetry; apply Qle_bool_false_iff;
      unfold battery_is_low, battery_shutdown; lra.
Qed.

(** X3. In volts: the low-battery alert is sent exactly when the bus
    voltage is at or under 3.275 V, and the shutdown branch is entered
    exactly when it is at or under 3.11 V. *)
Theorem alert_threshold_voltages (v : Q) :
  (Qle_bool (get_battery_percentage v) battery_is_low = true <-> v <= 3.275) /\
  (Qle_bool (get_battery_percentage v) battery_shutdown = true <-> v <= 3.11).
Proof.
  rewrite !Qle_bool_iff, !get_battery_percentage_linear.
  unfold battery_is_low, battery_shutdown.
  split; split; intros H; lra.
Qed.

(** ** A cycle whose accesses succeed, in full *)

Lemma cycle_nominal_run (ina219 : Sensor) (w : World)
      (bus_v shunt_v cur pow : Q) (ov : bool) :
  ina219 (now w) = nominal bus_v shunt_v cur pow ov ->
  let pct := get_battery_percentage bus_v in
  let pw := get_power_calc bus_v cur in
  cycle ina219 w =
  Ok (if confirm_check pct pw then Break else Continue)
     (mkWorld (now w + cycle_seconds pct pw)
        (trace w ++ cycle_prefix bus_v shunt_v cur pow ov ++ cycle_tail pct pw)).
Proof.
  intros Hs pct pw.
  rewrite (cycle_run ina219 w bus_v shunt_v cur pow ov Hs), cycle_end_run.
  fold pct pw. unfold confirm_check, cycle_seconds, cycle_tail.
  cbn [now trace].
  destruct (Qle_bool pct battery_shutdown);
    [destruct (Qle_bool pw (-1.00)) |];
    rewrite <- app_assoc, ?Nat.add_assoc; reflexivity.
Qed.

Lemma notifications_cycle (bus_v shunt_v cur pow : Q) (ov : bool) :
  notifications
    (cycle_prefix bus_v shunt_v cur pow ov ++
     cycle_tail (get_battery_percentage bus_v) (get_power_calc bus_v cur)) =
  cycle_alerts (get_battery_percentage bus_v) (get_power_calc bus_v cur).
Proof.
  unfold cycle_prefix, cycle_tail, cycle_alerts, confirm_trace.
  destruct ov;
    destruct (Qle_bool (get_power_calc bus_v cur) (-5.00));
    destruct (Qle_bool (get_battery_percentage bus_v) battery_is_low);
    destruct (Qle_bool (get_battery_percentage bus_v) battery_shutdown);
    destruct (Qle_bool (get_power_calc bus_v cur) (-1.00));
    reflexivity.
Qed.

(** X4. The notifications of a cycle whose register accesses succeed,
    in order: the "running on battery" alert when the power is at or
    under -5.0, the low-battery alert when the estimate is at or under
    [battery_is_low], and, when it is at or under [battery_shutdown],
    the critical warning, the four countdown alerts and either the
    critical "shutting down" alert (power at or under -1.0) or the
    "charging" alert. Nothing else is notified. *)
Theorem cycle_notification_sequence (ina219 : Sensor) (w : World)
        (bus_v shunt_v cur pow : Q) (ov : bool) :
  ina219 (now w) = nominal bus_v shunt_v cur pow ov ->
  notifications (trace (final (cycle ina219 w))) =
  notifications (trace w) ++
  cycle_alerts (get_battery_percentage bus_v) (get_power_calc bus_v cur).
Proof.
  intros Hs.
  rewrite (cycle_nominal_run ina219 w bus_v shunt_v cur pow ov Hs).
  cbn [final trace]. rewrite notifications_app, notifications_cycle.
  reflexivity.
Qed.

Lemma cycle_notification_sequence_witness :
  notifications (trace (final (cycle low_not_critical (boot 0)))) =
  notifications (trace (boot 0)) ++
  [(Normal, MBatteryLow (get_battery_percentage 3.2))].
Proof.
  apply (cycle_notification_sequence low_not_critical (boot 0)
           3.2 (-0.005) (-500) 1.6 false).
  reflexivity.
Defined.

Lemma cycle_alerts_exclusive (pct pw : Q) :
  existsb is_on_battery_alert (cycle_alerts pct pw) &&
  existsb is_charging_alert (cycle_alerts pct pw) = false.
Proof.
  unfold cycle_alerts.
  destruct (Qle_bool pw (-5.00)) eqn:H5;
    destruct (Qle_bool pct battery_is_low);
    destruct (Qle_bool pct battery_shutdown);
    destruct (Qle_bool pw (-1.00)) eqn:H1;
    try reflexivity; qprop; lra.
Qed.

(** X5. No cycle sends both the "running on battery" alert and the
    "charging" alert: a power at or under -5.0 is at or under -1.0, so
    the shutdown branch of such a cycle leaves the loop. *)
Theorem on_battery_alert_excludes_charging (ina219 : Sensor) (t : nat)
        (bus_v shunt_v cur pow : Q) (ov : bool) :
  ina219 t = nominal bus_v shunt_v cur pow ov ->
  let sent := notifications (trace (final (cycle ina219 (boot t)))) in
  existsb is_on_battery_alert sent && existsb is_charging_alert sent = false.
Proof.
  intros Hs.
  rewrite (cycle_nominal_run ina219 (boot t) bus_v shunt_v cur pow ov Hs).
  cbv zeta. cbn [final trace boot app].
  rewrite notifications_cycle. apply cycle_alerts_exclusive.
Qed.

Lemma on_battery_alert_excludes_charging_witness :
  existsb is_on_battery_alert
    (notifications (trace (final (cycle full_on_battery (boot 0))))) = true /\
  existsb is_on_battery_alert
    (notifications (trace (final (cycle full_on_battery (boot 0))))) &&
  existsb is_charging_alert
    (notifications (trace (final (cycle full_on_battery (boot 0))))) = false.
Proof.
  split; [vm_compute; reflexivity |].
  apply (on_battery_alert_excludes_charging full_on_battery 0
           4.2 (-0.015) (-1500) 6.3 false).
  reflexivity.
Defined.

Lemma cycle_prefix_split (bus_v shunt_v cur pow : Q) (ov : bool) :
  cycle_prefix bus_v shunt_v cur pow ov =
  readings_trace bus_v shunt_v cur pow ++
  (if ov then [Console LOverflow; Console LBlank] else []) ++
  alerts_trace (get_battery_percentage bus_v) (get_power_calc bus_v cur).
Proof. reflexivity. Qed.

Lemma overflow_line_not_later (pct pw : Q) :
  ~ In (Console LOverflow) (alerts_trace pct pw ++ cycle_tail pct pw).
Proof.
  unfold alerts_trace, cycle_tail, confirm_trace.
  destruct (Qle_bool pw (-5.00)); destruct (Qle_bool pct battery_is_low);
    destruct (Qle_bool pct battery_shutdown); destruct (Qle_bool pw (-1.00));
    cbn [app countdown_trace]; intros H;
    repeat (destruct H as [H | H]; [discriminate H |]); exact H.
Qed.

(** X6. The overflow flag changes the console only: with the flag set
    the cycle prints "Internal Math Overflow Detected!" and a blank line
    after the readings, and takes the same way, sleeps as long and sends
    the same notifications as with the flag clear. *)
Theorem overflow_flag_only_prints (s1 s2 : Sensor) (w : World)
        (bus_v shunt_v cur pow : Q) :
  s1 (now w) = nominal bus_v shunt_v cur pow true ->
  s2 (now w) = nominal bus_v shunt_v cur pow false ->
  exists c t rest,
    cycle s1 w =
      Ok c (mkWorld t (trace w ++ readings_trace bus_v shunt_v cur pow ++
                       [Console LOverflow; Console LBlank] ++ rest)) /\
    cycle s2 w =
      Ok c (mkWorld t (trace w ++ readings_trace bus_v shunt_v cur pow ++ rest)) /\
    ~ In (Console LOverflow) rest.
Proof.
  intros H1 H2.
  rewrite (cycle_nominal_run s1 w bus_v shunt_v cur pow true H1).
  rewrite (cycle_nominal_run s2 w bus_v shunt_v cur pow false H2).
  cbv zeta. rewrite !cycle_prefix_split.
  set (pct := get_battery_percentage bus_v).
  set (pw := get_power_calc bus_v cur).
  exists (if confirm_check pct pw then Break else Continue),
         (now w + cycle_seconds pct pw)%nat,
         (alerts_trace pct pw ++ cycle_tail pct pw).
  split; [| split].
  - rewrite <- !app_assoc. reflexivity.
  - cbn [app]. rewrite <- !app_assoc. reflexivity.
  - apply overflow_line_not_later.
Qed.

Lemma overflow_flag_only_prints_witness :
  exists c t rest,
    cycle healthy_overflow (boot 0) =
      Ok c (mkWorld t (trace (boot 0) ++ readings_trace 3.9 0.01 500 1.95 ++
                       [Console LOverflow; Console LBlank] ++ rest)) /\
    cycle healthy (boot 0) =
      Ok c (mkWorld t (trace (boot 0) ++ readings_trace 3.9 0.01 500 1.95 ++ rest)) /\
    ~ In (Console LOverflow) rest.
Proof.
  apply (overflow_flag_only_prints healthy_overflow healthy (boot 0)
           3.9 0.01 500 1.95); reflexivity.
Defined.

(** ** A fault of the overflow access *)

Lemma cycle_overflow_fault (ina219 : Sensor) (w : World)
      (bus_v shunt_v cur pow : Q) :
  ina219 (now w) =
    mkSample (Some bus_v) (Some shunt_v) (Some cur) (Some pow) None ->
  cycle ina219 w =
  Raised (SensorFault Overflow)
    (mkWorld (now w) (trace w ++ readings_trace bus_v shunt_v cur pow)).
Proof.
  intros Hs. unfold cycle, readings_trace.
  unfold report, check_overflow, bind, read, print, emit. cbn [now trace].
  repeat (rewrite Hs;
          cbn [bus_voltage shunt_voltage current power overflow now trace]).
  rewrite <- ?app_assoc. reflexivity.
Qed.

(** X7. When the four readings succeed and the access to the overflow
    flag raises, the script ends with that exception after it has
    printed the readings: no threshold is tested and no alert is sent,
    however low the battery is. *)
Theorem overflow_fault_ends_monitor (ina219 : Sensor) (w : World)
        (bus_v shunt_v cur pow : Q) (fuel : nat) :
  ina219 (now w) =
    mkSample (Some bus_v) (Some shunt_v) (Some cur) (Some pow) None ->
  monitor ina219 (S fuel) w =
    Raised (SensorFault Overflow)
      (mkWorld (now w) (trace w ++ readings_trace bus_v shunt_v cur pow)) /\
  notifications (readings_trace bus_v shunt_v cur pow) = [].
Proof.
  intros Hs. split; [| reflexivity].
  apply monitor_raise, cycle_overflow_fault, Hs.
Qed.

Lemma overflow_fault_ends_monitor_witness :
  get_battery_percentage 3.0 <= battery_shutdown /\
  monitor broken_overflow 3 (boot 0) =
    Raised (SensorFault Overflow)
      (mkWorld (now (boot 0))
         (trace (boot 0) ++ readings_trace 3.0 (-0.01) (-1000) 3.0)) /\
  notifications (readings_trace 3.0 (-0.01) (-1000) 3.0) = [].
Proof.
  split; [discriminate |].
  apply (overflow_fault_ends_monitor broken_overflow (boot 0)
           3.0 (-0.01) (-1000) 3.0 2).
  reflexivity.
Defined.

(** ** Leaving the loop *)

Lemma cycle_break_inv (ina219 : Sensor) (w w' : World) :
  cycle ina219 w = Ok Break w' ->
  exists bus_v shunt_v cur pow ov,
    ina219 (now w) = nominal bus_v shunt_v cur pow ov /\
    get_battery_percentage bus_v <= battery_shutdown /\
    get_power_calc bus_v cur <= -1.00 /\
    now w' = (now w + 12)%nat.
Proof.
  intros Hc.
  destruct (ina219 (now w)) as [b sh c p o] eqn:Hs.
  destruct b as [b |];
    [| rewrite (cycle_fault ina219 w BusVoltage) in Hc;
       [discriminate Hc | rewrite Hs; reflexivity]].
  destruct sh as [sh |];
    [| rewrite (cycle_fault ina219 w ShuntVoltage) in Hc;
       [discriminate Hc | rewrite Hs; reflexivity]].
  destruct c as [c |];
    [| rewrite (cycle_fault ina219 w Current) in Hc;
       [discriminate Hc | rewrite Hs; reflexivity]].
  destruct p as [p |];
    [| rewrite (cycle_fault ina219 w Power) in Hc;
       [discriminate Hc | rewrite Hs; reflexivity]].
  destruct o as [o |];
    [| rewrite (cycle_overflow_fault ina219 w b sh c p Hs) in Hc;
       discriminate Hc].
  rewrite (cycle_nominal_run ina219 w b sh c p o Hs) in Hc. cbv zeta in Hc.
  exists b, sh, c, p, o. split; [reflexivity |].
  unfold confirm_check, cycle_seconds in Hc.
  destruct (Qle_bool (get_battery_percentage b) battery_shutdown) eqn:Hpct;
    [| discriminate Hc].
  destruct (Qle_bool (get_power_calc b c) (-1.00)) eqn:Hpw;
    [| discriminate Hc].
  cbn [andb] in Hc. injection Hc as <-. qprop. cbn [now].
  repeat split; assumption || reflexivity.
Qed.

Lemma cycle_continue_clock (ina219 : Sensor) (w w' : World) :
  cycle ina219 w = Ok Continue w' -> (now w <= now w')%nat.
Proof.
  intros Hc.
  destruct (ina219 (now w)) as [b sh c p o] eqn:Hs.
  destruct b as [b |];
    [| rewrite (cycle_fault ina219 w BusVoltage) in Hc;
       [discriminate Hc | rewrite Hs; reflexivity]].
  destruct sh as [sh |];
    [| rewrite (cycle_fault ina219 w ShuntVoltage) in Hc;
       [discriminate Hc | rewrite Hs; reflexivity]].
  destruct c as [c |];
    [| rewrite (cycle_fault ina219 w Current) in Hc;
       [discriminate Hc | rewrite Hs; reflexivity]].
  destruct p as [p |];
    [| rewrite (cycle_fault ina219 w Power) in Hc;
       [discriminate Hc | rewrite Hs; reflexivity]].
  destruct o as [o |];
    [| rewrite (cycle_overflow_fault ina219 w b sh c p Hs) in Hc;
       discriminate Hc].
  rewrite (cycle_nominal_run ina219 w b sh c p o Hs) in Hc. cbv zeta in Hc.
  injection Hc as _ <-. cbn [now]. lia.
Qed.

(** X8. The loop is left only on a critical battery that is still
    discharging: when the script ends by [break], the sample read at the
    start of its last cycle, at some instant [t], had an estimate at or
    under [battery_shutdown] and a power at or under -1.0, and the loop
    was left 12 seconds after that sample. *)
Theorem monitor_exits_only_when_critical (ina219 : Sensor) (fuel : nat)
        (w w' : World) :
  monitor ina219 fuel w = Ok Exited w' ->
  exists t bus_v shunt_v cur pow ov,
    (now w <= t)%nat /\
    ina219 t = nominal bus_v shunt_v cur pow ov /\
    get_battery_percentage bus_v <= battery_shutdown /\
    get_power_calc bus_v cur <= -1.00 /\
    now w' = (t + 12)%nat.
Proof.
  revert w. induction fuel as [| fuel IH]; intros w H.
  - discriminate H.
  - cbn [monitor] in H. unfold bind in H.
    destruct (cycle ina219 w) as [[|] w1 | e w1] eqn:Hc.
    + destruct (IH w1 H) as (t & b & sh & c & p & o & Ht & Hrest).
      exists t, b, sh, c, p, o. split; [| exact Hrest].
      apply cycle_continue_clock in Hc. lia.
    + injection H as <-.
      destruct (cycle_break_inv ina219 w w1 Hc)
        as (b & sh & c & p & o & Hs & Hpct & Hpw & Hnow).
      exists (now w), b, sh, c, p, o. repeat split; auto.
    + discriminate H.
Qed.

Lemma monitor_exits_only_when_critical_witness :
  exists t bus_v shunt_v cur pow ov,
    (now (boot 0) <= t)%nat /\
    critical_on_battery t = nominal bus_v shunt_v cur pow ov /\
    get_battery_percentage bus_v <= battery_shutdown /\
    get_power_calc bus_v cur <= -1.00 /\
    now (final (monitor critical_on_battery 3 (boot 0))) = (t + 12)%nat.
Proof.
  apply (monitor_exits_only_when_critical critical_on_battery 3 (boot 0)
           (final (monitor critical_on_battery 3 (boot 0)))).
  vm_compute. reflexivity.
Defined.

(** X9. The loop never runs the shutdown command: whatever the sensor
    shows, faults included, and however many cycles run, the number of
    "sudo shutdown -h now" in the trace does not change. *)
Theorem monitor_never_runs_shutdown (ina219 : Sensor) (fuel : nat) (w : World) :
  shutdown_count (trace (final (monitor ina219 fuel w))) =
  shutdown_count (trace w).
Proof. apply no_shutdown_monitor. Qed.

(** ** Staying in the loop *)

(** X10. As long as every access succeeds and the estimate stays above
    [battery_shutdown], the loop goes on: after any number of cycles it
    is still running, and each cycle took exactly
    [battery_check_interval] seconds. *)
Theorem monitor_runs_while_above_shutdown (ina219 : Sensor) (fuel : nat)
        (w : World) :
  (forall t, exists bus_v shunt_v cur pow ov,
      ina219 t = nominal bus_v shunt_v cur pow ov /\
      battery_shutdown < get_battery_percentage bus_v) ->
  exists w',
    monitor ina219 fuel w = Ok Running w' /\
    now w' = (now w + fuel * battery_check_interval)%nat.
Proof.
  intros Hall. revert w. induction fuel as [| fuel IH]; intros w.
  - exists w. split; [reflexivity | cbn; lia].
  - destruct (Hall (now w)) as (b & sh & c & p & o & Hs & Hpct).
    pose proof (cycle_nominal_run ina219 w b sh c p o Hs) as Hrun.
    cbv zeta in Hrun. unfold confirm_check, cycle_seconds in Hrun.
    apply Qle_bool_false_iff in Hpct. rewrite Hpct in Hrun.
    cbn [andb] in Hrun.
    rewrite (monitor_step ina219 fuel w _ Hrun).
    destruct (IH (mkWorld (now w + battery_check_interval)
                    (trace w ++ cycle_prefix b sh c p o ++
                     cycle_tail (get_battery_percentage b)
                       (get_power_calc b c))))
      as (w' & Hm & Hnow).
    exists w'. split; [exact Hm |]. rewrite Hnow. cbn [now]. lia.
Qed.

Lemma monitor_runs_while_above_shutdown_witness :
  exists w',
    monitor healthy 6 (boot 0) = Ok Running w' /\
    now w' = (now (boot 0) + 6 * battery_check_interval)%nat.
Proof.
  apply (monitor_runs_while_above_shutdown healthy 6 (boot 0)).
  intros t. exists 3.9, 0.01, 500, 1.95, false.
  split; reflexivity.
Defined.

(** X11. The script keeps no memory of the alerts it sent: on a battery
    that stays low without being critical (estimate above
    [battery_shutdown], at or under [battery_is_low], power above -5.0),
    every cycle sends the low-battery alert again, and nothing else. *)
Theorem low_alert_repeats_every_cycle (ina219 : Sensor) (n : nat) (w : World)
        (bus_v shunt_v cur pow : Q) (ov : bool) :
  (forall t, ina219 t = nominal bus_v shunt_v cur pow ov) ->
  battery_shutdown < get_battery_percentage bus_v <= battery_is_low ->
  -5.00 < get_power_calc bus_v cur ->
  notifications (trace (final (monitor ina219 n w))) =
  notifications (trace w) ++
  repeat (Normal, MBatteryLow (get_battery_percentage bus_v)) n.
Proof.
  intros Hall [Hsd Hlow] Hpw. revert w.
  apply Qle_bool_false_iff in Hsd. apply Qle_bool_iff in Hlow.
  apply Qle_bool_false_iff in Hpw.
  induction n as [| n IH]; intros w.
  - cbn. rewrite app_nil_r. reflexivity.
  - pose proof (cycle_nominal_run ina219 w bus_v shunt_v cur pow ov (Hall (now w)))
      as Hrun.
    cbv zeta in Hrun. unfold confirm_check in Hrun.
    rewrite Hsd in Hrun. cbn [andb] in Hrun.
    rewrite (monitor_step ina219 n w _ Hrun), IH. cbn [trace].
    rewrite notifications_app, notifications_cycle.
    unfold cycle_alerts. rewrite Hsd, Hlow, Hpw.
    cbn [app repeat]. rewrite <- app_assoc. reflexivity.
Qed.

Lemma low_alert_repeats_every_cycle_witness :
  notifications (trace (final (monitor low_not_critical 3 (boot 0)))) =
  notifications (trace (boot 0)) ++
  repeat (Normal, MBatteryLow (get_battery_percentage 3.2)) 3.
Proof.
  apply (low_alert_repeats_every_cycle low_not_critical 3 (boot 0)
           3.2 (-0.005) (-500) 1.6 false).
  - intros t. reflexivity.
  - split; [reflexivity | discriminate].
  - reflexivity.
Defined.

(** ** Register accesses and the order of the alerts *)

Lemma filter_is_read_after_readings (pct pw : Q) (ov : bool) :
  filter is_read
    ((if ov then [Console LOverflow; Console LBlank] else []) ++
     alerts_trace pct pw ++ cycle_tail pct pw) = [].
Proof.
  unfold alerts_trace, cycle_tail, confirm_trace.
  destruct ov; destruct (Qle_bool pw (-5.00));
    destruct (Qle_bool pct battery_is_low);
    destruct (Qle_bool pct battery_shutdown);
    destruct (Qle_bool pw (-1.00)); reflexivity.
Qed.

(** X12. A cycle whose accesses succeed reads each of the five
    registers once, in the order bus voltage, shunt voltage, current,
    power, overflow, whichever alerts it sends and whether or not it
    counts down. *)
Theorem cycle_reads_each_register_once (ina219 : Sensor) (w : World)
        (bus_v shunt_v cur pow : Q) (ov : bool) :
  ina219 (now w) = nominal bus_v shunt_v cur pow ov ->
  exists tr,
    trace (final (cycle ina219 w)) = trace w ++ tr /\
    filter is_read tr =
      map Read [BusVoltage; ShuntVoltage; Current; Power; Overflow].
Proof.
  intros Hs.
  rewrite (cycle_nominal_run ina219 w bus_v shunt_v cur pow ov Hs).
  cbv zeta. cbn [final trace]. eexists. split; [reflexivity |].
  rewrite cycle_prefix_split, <- !app_assoc, filter_app.
  rewrite filter_is_read_after_readings, app_nil_r. reflexivity.
Qed.

Lemma cycle_reads_each_register_once_witness :
  exists tr,
    trace (final (cycle critical_on_battery (boot 0))) = trace (boot 0) ++ tr /\
    filter is_read tr =
      map Read [BusVoltage; ShuntVoltage; Current; Power; Overflow].
Proof.
  apply (cycle_reads_each_register_once critical_on_battery (boot 0)
           3.11 (-0.01) (-1000) 3.11 false).
  reflexivity.
Defined.

(** X13. [battery_shutdown] is under [battery_is_low], so a cycle that
    enters the shutdown branch has sent the low-battery alert just
    before the critical warning: its notifications are the optional
    "running on battery" alert, the low-battery alert, the critical
    warning, the four countdown alerts and the closing alert. *)
Theorem critical_cycle_sends_low_alert_first (ina219 : Sensor) (w : World)
        (bus_v shunt_v cur pow : Q) (ov : bool) :
  ina219 (now w) = nominal bus_v shunt_v cur pow ov ->
  get_battery_percentage bus_v <= battery_shutdown ->
  let pct := get_battery_percentage bus_v in
  let pw := get_power_calc bus_v cur in
  notifications (trace (final (cycle ina219 w))) =
  notifications (trace w) ++
  (if Qle_bool pw (-5.00) then [(Normal, MRunningOnBattery pct)] else []) ++
  [ (Normal, MBatteryLow pct);
    (Critical, MCriticallyLow pct);
    (Normal, MCountdown 10); (Normal, MCountdown 7);
    (Normal, MCountdown 4); (Normal, MCountdown 1);
    (if Qle_bool pw (-1.00)
     then (Critical, MShuttingDown pct)
     else (Normal, MCharging pct)) ].
Proof.
  intros Hs Hpct pct pw.
  rewrite (cycle_nominal_run ina219 w bus_v shunt_v cur pow ov Hs).
  cbv zeta. cbn [final trace].
  rewrite notifications_app, notifications_cycle.
  fold pct pw. fold pct in Hpct. unfold cycle_alerts.
  assert (Hlow : pct <= battery_is_low).
  { unfold battery_is_low, battery_shutdown in *. lra. }
  apply Qle_bool_iff in Hpct. apply Qle_bool_iff in Hlow.
  rewrite Hpct, Hlow. reflexivity.
Qed.

Lemma critical_cycle_sends_low_alert_first_witness :
  notifications (trace (final (cycle charging (boot 0)))) =
  notifications (trace (boot 0)) ++
  [ (Normal, MBatteryLow (get_battery_percentage 3.11));
    (Critical, MCriticallyLow (get_battery_percentage 3.11));
    (Normal, MCountdown 10); (Normal, MCountdown 7);
    (Normal, MCountdown 4); (Normal, MCountdown 1);
    (Normal, MCharging (get_battery_percentage 3.11)) ].
Proof.
  apply (critical_cycle_sends_low_alert_first charging (boot 0)
           3.11 0.01 1000 3.11 false);
    [reflexivity | discriminate].
Defined.

(** * Notifications that fail *)

(** ** The two embeddings agree when every call returns *)

Lemma bind_ext {A B : Type} (m1 m2 : M A) (f1 f2 : A -> M B) (w : World) :
  (forall w', m1 w' = m2 w') ->
  (forall a w', f1 a w' = f2 a w') ->
  bind m1 f1 w = bind m2 f2 w.
Proof.
  intros Hm Hf. unfold bind. rewrite Hm.
  destruct (m2 w) as [a w1 | e w1]; [apply Hf | reflexivity].
Qed.

Lemma when_ext (b : bool) (m1 m2 : M unit) (w : World) :
  (forall w', m1 w' = m2 w') -> when b m1 w = when b m2 w.
Proof. intros H. destruct b; [apply H | reflexivity]. Qed.

Lemma for_each_ext {A : Type} (xs : list A) (b1 b2 : A -> M unit) (w : World) :
  (forall x w', b1 x w' = b2 x w') ->
  for_each xs b1 w = for_each xs b2 w.
Proof.
  intros H. revert w. induction xs as [| x xs IH]; intros w; cbn [for_each].
  - reflexivity.
  - apply bind_ext; [apply H | intros _ w'; apply IH].
Qed.

Lemma notify_returns (n : Notifier) (u : Urgency) (m : Message) (w : World) :
  returns n -> notify n u m w = emit (Notify u m) w.
Proof.
  intros Hn. unfold notify, emit. specialize (Hn (now w) u m).
  destruct (n (now w) u m); [reflexivity | reflexivity | contradiction].
Qed.

Lemma live_battery_low_returns (n : Notifier) (w : World) :
  returns n -> live_battery_low n w = battery_low w.
Proof.
  intros Hn. unfold live_battery_low, battery_low.
  apply for_each_ext. intros i w'.
  apply bind_ext; [reflexivity | intros _ w1].
  apply bind_ext; [| reflexivity].
  intros w2. apply notify_returns, Hn.
Qed.

Lemma live_shutdown_branch_returns (n : Notifier) (pct pw : Q) (w : World) :
  returns n -> live_shutdown_branch n pct pw w = shutdown_branch pct pw w.
Proof.
  intros Hn. unfold live_shutdown_branch, shutdown_branch.
  destruct (Qle_bool pct battery_shutdown); [| reflexivity].
  apply bind_ext; [intros w1; apply notify_returns, Hn | intros _ w1].
  apply bind_ext; [intros w2; apply live_battery_low_returns, Hn | intros _ w2].
  destruct (confirm_check pct pw);
    (apply bind_ext; [intros w3; apply notify_returns, Hn | reflexivity]).
Qed.

Lemma live_cycle_returns (ina219 : Sensor) (n : Notifier) (w : World) :
  returns n -> live_cycle ina219 n w = cycle ina219 w.
Proof.
  intros Hn. unfold live_cycle, cycle.
  do 6 (apply bind_ext; [reflexivity | intros ? ?]).
  cbv zeta.
  apply bind_ext.
  { intros w1. apply when_ext. intros w2.
    apply bind_ext; [reflexivity | intros _ w3]. apply notify_returns, Hn. }
  intros _ w1. apply bind_ext.
  { intros w2. apply when_ext. intros w3.
    apply bind_ext; [reflexivity | intros _ w4]. apply notify_returns, Hn. }
  intros _ w2. apply bind_ext; [| reflexivity].
  intros w3. apply live_shutdown_branch_returns, Hn.
Qed.

Lemma live_monitor_returns (ina219 : Sensor) (n : Notifier) (fuel : nat)
      (w : World) :
  returns n -> live_monitor ina219 n fuel w = monitor ina219 fuel w.
Proof.
  intros Hn. revert w. induction fuel as [| fuel IH]; intros w.
  - reflexivity.
  - cbn [live_monitor monitor].
    apply bind_ext; [intros w1; apply live_cycle_returns, Hn |].
    intros [|] w1; [apply IH | reflexivity].
Qed.

(** ** What reaches the console *)

Lemma cycle_prefix_ends_with_low_alert (bus_v shunt_v cur pow : Q) (ov : bool) :
  get_battery_percentage bus_v <= battery_is_low ->
  exists before,
    cycle_prefix bus_v shunt_v cur pow ov =
    before ++ [ Console LRanBatteryPercentage;
                Notify Normal (MBatteryLow (get_battery_percentage bus_v)) ].
Proof.
  intros H. apply Qle_bool_iff in H.
  rewrite cycle_prefix_split. unfold alerts_trace. rewrite H.
  eexists. rewrite !app_assoc. reflexivity.
Qed.

Lemma live_cycle_raises_at_first_alert (ina219 : Sensor) (n : Notifier)
      (w : World) (bus_v shunt_v cur pow : Q) (ov : bool) :
  ina219 (now w) = nominal bus_v shunt_v cur pow ov ->
  (forall u m, n (now w) u m = CannotExecute) ->
  get_battery_percentage bus_v <= battery_is_low ->
  live_cycle ina219 n w =
  Raised NotifierError
    (mkWorld (now w)
       (trace w ++ readings_trace bus_v shunt_v cur pow ++
        (if ov then [Console LOverflow; Console LBlank] else []) ++
        (if Qle_bool (get_power_calc bus_v cur) (-5.00)
         then [ Console LNoInput;
                Notify Normal (MRunningOnBattery (get_battery_percentage bus_v)) ]
         else [ Console LRanBatteryPercentage;
                Notify Normal (MBatteryLow (get_battery_percentage bus_v)) ]))).
Proof.
  intros Hs Hn Hlow. apply Qle_bool_iff in Hlow.
  unfold nominal in Hs. unfold live_cycle, readings_trace.
  unfold report, check_overflow, bind, read, print, emit. cbn [now trace].
  repeat (rewrite Hs;
          cbn [bus_voltage shunt_voltage current power overflow now trace]).
  destruct ov; destruct (Qle_bool (get_power_calc bus_v cur) (-5.00));
    rewrite ?Hlow;
    unfold when, bind, print, live_send_alert, notify, emit, ret;
    cbn [now trace]; rewrite Hn; rewrite <- ?app_assoc; reflexivity.
Qed.

(** C7, as the code has it. In a cycle whose register accesses succeed:
    when every call of notify-send returns, whatever its exit status,
    each threshold crossing is written to the console beside its
    notification: at or under [battery_is_low] the cycle prints "Ran
    Battery Percentage" and then calls the low-battery alert; at or
    under [battery_shutdown] it calls the critical alert and then, four
    times, prints "Shutting down in N seconds...", calls the countdown
    alert and sleeps. When instead the calls made at the start of the
    cycle raise (notify-send cannot be executed), the script ends at the
    first alert of the cycle: a cycle at or under [battery_is_low] ends
    with [NotifierError] and has printed no countdown line. *)
Theorem threshold_crossings_reach_console_when_calls_return
        (ina219 : Sensor) (n n' : Notifier) (w : World)
        (bus_v shunt_v cur pow : Q) (ov : bool) :
  ina219 (now w) = nominal bus_v shunt_v cur pow ov ->
  returns n ->
  (forall u m, n' (now w) u m = CannotExecute) ->
  let pct := get_battery_percentage bus_v in
  (exists tr,
     trace (final (live_cycle ina219 n w)) = trace w ++ tr /\
     (pct <= battery_is_low ->
      exists before after,
        tr = before ++ Console LRanBatteryPercentage ::
                       Notify Normal (MBatteryLow pct) :: after) /\
     (pct <= battery_shutdown ->
      exists before after,
        tr = before ++ Notify Critical (MCriticallyLow pct) ::
                       countdown_trace ++ after)) /\
  (pct <= battery_is_low ->
   exists tr,
     live_cycle ina219 n' w = Raised NotifierError (mkWorld (now w) (trace w ++ tr)) /\
     forall i, ~ In (Console (LCountdown i)) tr).
Proof.
  intros Hs Hn Hn' pct. split.
  - rewrite (live_cycle_returns ina219 n w Hn).
    rewrite (cycle_nominal_run ina219 w bus_v shunt_v cur pow ov Hs).
    cbv zeta. fold pct. cbn [final trace].
    eexists. split; [reflexivity |]. split.
    + intros Hlow.
      destruct (cycle_prefix_ends_with_low_alert bus_v shunt_v cur pow ov Hlow)
        as [before Hpre].
      exists before, (cycle_tail pct (get_power_calc bus_v cur)).
      rewrite Hpre. fold pct. rewrite <- app_assoc. reflexivity.
    + intros Hcrit. apply Qle_bool_iff in Hcrit.
      unfold cycle_tail, confirm_trace. rewrite Hcrit.
      eexists (cycle_prefix bus_v shunt_v cur pow ov). eexists. reflexivity.
  - intros Hlow.
    rewrite (live_cycle_raises_at_first_alert ina219 n' w
               bus_v shunt_v cur pow ov Hs Hn' Hlow).
    eexists. split; [reflexivity |].
    intros i. unfold readings_trace.
    destruct ov; destruct (Qle_bool (get_power_calc bus_v cur) (-5.00));
      cbn [app]; intros H;
      repeat (destruct H as [H | H]; [discriminate H |]); exact H.
Qed.

Lemma threshold_crossings_reach_console_when_calls_return_witness :
  returns notify_send_fails /\
  get_battery_percentage 3.11 <= battery_is_low /\
  get_battery_percentage 3.11 <= battery_shutdown /\
  (exists tr,
     trace (final (live_cycle critical_on_battery notify_send_fails (boot 0))) =
       trace (boot 0) ++ tr /\
     (exists before after,
        tr = before ++ Console LRanBatteryPercentage ::
                       Notify Normal (MBatteryLow (get_battery_percentage 3.11)) ::
                       after) /\
     (exists before after,
        tr = before ++ Notify Critical (MCriticallyLow (get_battery_percentage 3.11)) ::
                       countdown_trace ++ after)) /\
  (exists tr,
     live_cycle critical_on_battery notify_send_missing (boot 0) =
       Raised NotifierError (mkWorld (now (boot 0)) (trace (boot 0) ++ tr)) /\
     forall i, ~ In (Console (LCountdown i)) tr).
Proof.
  assert (Hret : returns notify_send_fails) by (intros t u m; discriminate).
  assert (Hlow : get_battery_percentage 3.11 <= battery_is_low) by discriminate.
  assert (Hcrit : get_battery_percentage 3.11 <= battery_shutdown) by discriminate.
  split; [exact Hret |]. split; [exact Hlow |]. split; [exact Hcrit |].
  destruct (threshold_crossings_reach_console_when_calls_return
              critical_on_battery notify_send_fails notify_send_missing (boot 0)
              3.11 (-0.01) (-1000) 3.11 false eq_refl Hret
              (fun _ _ => eq_refl))
    as [(tr & Htr & Hl & Hc) Hraise].
  split.
  - exists tr. split; [exact Htr |]. split; [exact (Hl Hlow) | exact (Hc Hcrit)].
  - exact (Hraise Hlow).
Defined.

(** C7, as stated, fails: with notify-send missing, a battery at the
    shutdown threshold has its low-battery line printed, the call of the
    low-battery alert raises and ends the script, and no line of the
    shutdown crossing ever reaches the console. *)
Lemma critical_crossing_not_printed_when_notifier_missing :
  get_battery_percentage 3.11 <= battery_shutdown /\
  live_monitor critical_on_battery notify_send_missing 3 (boot 0) =
    Raised NotifierError
      (mkWorld 0
         (readings_trace 3.11 (-0.01) (-1000) 3.11 ++
          [ Console LRanBatteryPercentage;
            Notify Normal (MBatteryLow (get_battery_percentage 3.11)) ])) /\
  forall i,
    ~ In (Console (LCountdown i))
        (trace (final (live_monitor critical_on_battery notify_send_missing 3
                         (boot 0)))).
Proof.
  assert (Hrun :
    live_monitor critical_on_battery notify_send_missing 3 (boot 0) =
    Raised NotifierError
      (mkWorld 0
         (readings_trace 3.11 (-0.01) (-1000) 3.11 ++
          [ Console LRanBatteryPercentage;
            Notify Normal (MBatteryLow (get_battery_percentage 3.11)) ]))).
  { cbn [live_monitor]. unfold bind at 1.
    rewrite (live_cycle_raises_at_first_alert critical_on_battery
               notify_send_missing (boot 0) 3.11 (-0.01) (-1000) 3.11 false);
      [reflexivity | reflexivity | reflexivity | discriminate]. }
  split; [discriminate |]. split; [exact Hrun |].
  intros i. rewrite Hrun. cbn [final trace readings_trace app]. intros H.
  repeat (destruct H as [H | H]; [discriminate H |]); exact H.
Qed.
